(** * bfcache-manager.js: the lifecycle bridge and its connection handle

    A shallow embedding of [src/js/bfcache-manager.js].  The script is an
    immediately-invoked function whose only mutable binding is [appSocket];
    everything else it does is a call on the hosting page: [console.log]
    and the [close()] method of whatever object [appSocket] references.

    - the binding [appSocket] is the [Store];
    - the calls on the hosting page are recorded, in program order, in a
      trace of [Effect]s;
    - a handler either completes normally or ends abruptly with the
      exception raised by the collaborator's [close()].

    The hosting page is taken as a browser: [console] and the global
    [WebSocket] exist, and [pageshow]/[pagehide] listeners receive a
    [PageTransitionEvent] whose [persisted] property is a boolean. *)

From Stdlib Require Import List String ZArith Lia.
Import ListNotations.
Local Open Scope string_scope.
Local Open Scope list_scope.

(* ================================================================== *)
(** ** The hosting page as the script sees it *)

Module Js.

(** A WebSocket object as far as the script can observe it: its identity,
    its [readyState] property and how its [close()] method answers
    ([None]: returns; [Some e]: raises [e]). *)
Record WebSocketObj : Type := mkWebSocket {
  ws_id        : nat;
  readyState   : Z;
  close_raises : option string
}.

(** The [readyState] constants of the [WebSocket] global. *)
Module WebSocket.
Definition OPEN       : Z := 1.
Definition CLOSING    : Z := 2.
Definition CLOSED     : Z := 3.
End WebSocket.

(** The event object handed to a [pageshow]/[pagehide] listener. *)
Record PageTransitionEvent : Type := mkEvent { persisted : bool }.

(** Arguments the script passes to [console.log]. *)
Inductive LogArg : Type :=
| LStr  (s : string)
| LBool (b : bool).

(** Calls the script can make on the hosting page. *)
Inductive Effect : Type :=
| ConsoleLog (args : list LogArg)
| WsNew      (url : string)          (* new WebSocket(url) *)
| WsClose    (ws : WebSocketObj).    (* ws.close()         *)

Inductive Completion (A : Type) : Type :=
| Normal (a : A)
| Throw  (err : string).
Arguments Normal {A} a.
Arguments Throw {A} err.

End Js.
Import Js.

(* ================================================================== *)
(** ** The module's state and the monad its functions run in *)

(** Line 23: [let appSocket = null;] is the only mutable binding. *)
Record Store : Type := mkStore { appSocket : option WebSocketObj }.

Record Outcome (A : Type) : Type := mkOutcome {
  completion : Completion A;
  store      : Store;
  trace      : list Effect
}.
Arguments mkOutcome {A} _ _ _.
Arguments completion {A} _.
Arguments store {A} _.
Arguments trace {A} _.

Definition M (A : Type) : Type := Store -> Outcome A.

Definition ret {A} (a : A) : M A :=
  fun s => mkOutcome (Normal a) s [].

(** Sequencing: an abrupt completion of the first statement skips the rest. *)
Definition bind {A B} (m : M A) (k : A -> M B) : M B :=
  fun s =>
    let r := m s in
    match completion r with
    | Normal a =>
        let r' := k a (store r) in
        mkOutcome (completion r') (store r') (trace r ++ trace r')
    | Throw e => mkOutcome (Throw e) (store r) (trace r)
    end.

Notation "x <- m ;; k" := (bind m (fun x => k))
  (at level 61, m at next level, right associativity).
Notation "m ;; k" := (bind m (fun _ => k))
  (at level 61, right associativity).

Definition emit (e : Effect) : M unit :=
  fun s => mkOutcome (Normal tt) s [e].

Definition console_log (args : list LogArg) : M unit :=
  emit (ConsoleLog args).

Definition read_appSocket : M (option WebSocketObj) :=
  fun s => mkOutcome (Normal (appSocket s)) s [].

Definition write_appSocket (v : option WebSocketObj) : M unit :=
  fun _ => mkOutcome (Normal tt) (mkStore v) [].

(** [ws.close()]: the call is made, then the collaborator returns or raises. *)
Definition ws_close (ws : WebSocketObj) : M unit :=
  fun s =>
    match close_raises ws with
    | None   => mkOutcome (Normal tt) s [WsClose ws]
    | Some e => mkOutcome (Throw e) s [WsClose ws]
    end.

(* ================================================================== *)
(** ** The script *)

(** [appSocket && appSocket.readyState === WebSocket.OPEN] (line 34):
    [null] is falsy, an object is truthy. *)
Definition already_open (v : option WebSocketObj) : bool :=
  match v with
  | None    => false
  | Some ws => Z.eqb (readyState ws) WebSocket.OPEN
  end.

(** Lines 29-56.  Lines 41-55, which would assign [new WebSocket(WS_URL)]
    to [appSocket] and attach its listeners, are comments in the source. *)
Definition connectWebSocket : M unit :=
  let WS_URL := "wss://your-websocket-endpoint.example.com" in
  sock <- read_appSocket ;;
  if already_open sock then
    console_log [LStr "[bfcache-manager] WebSocket already open."]
  else
    console_log [LStr "[bfcache-manager] Connecting WebSocket..."].

(** Lines 62-68. *)
Definition closeWebSocket : M unit :=
  sock <- read_appSocket ;;
  match sock with
  | Some ws =>
      console_log
        [LStr "[bfcache-manager] Closing WebSocket for page suspension..."] ;;
      ws_close ws ;;
      write_appSocket None
  | None => ret tt
  end.

(** Lines 76-86. *)
Definition onPageShow (event : PageTransitionEvent) : M unit :=
  (if persisted event then
     console_log [LStr "[bfcache-manager] Page restored from bfcache."]
   else
     console_log [LStr "[bfcache-manager] Page loaded normally."]) ;;
  connectWebSocket.

(** Lines 94-102. *)
Definition onPageHide (event : PageTransitionEvent) : M unit :=
  console_log [LStr "[bfcache-manager] Page hiding. Persisted:";
               LBool (persisted event)] ;;
  closeWebSocket.

(** Lines 109-112. *)
Definition onFreeze : M unit :=
  console_log [LStr "[bfcache-manager] Page freezing."] ;;
  closeWebSocket.

(** Lines 119-122. *)
Definition onResume : M unit :=
  console_log [LStr "[bfcache-manager] Page resuming."] ;;
  connectWebSocket.

(** The four lifecycle signals of the hosting page. *)
Inductive Signal : Type :=
| show   (persisted : bool)
| hide   (persisted : bool)
| freeze
| resume.

(** Lines 126-131: the listener registered for each signal. *)
Definition deliver (sig : Signal) : M unit :=
  match sig with
  | show p => onPageShow (mkEvent p)
  | hide p => onPageHide (mkEvent p)
  | freeze => onFreeze
  | resume => onResume
  end.

(** Line 23 and line 133: the state and the output of loading the script. *)
Definition init_store : Store := mkStore None.

Definition main : M unit :=
  console_log
    [LStr "[bfcache-manager] Initialized with Page Lifecycle API support."].

Definition boot : Store := store (main init_store).

(** Delivering a sequence of signals.  The page dispatches the next signal
    whatever the completion of the previous listener was. *)
Fixpoint exec (sigs : list Signal) (s : Store) : Store * list Effect :=
  match sigs with
  | [] => (s, [])
  | sig :: rest =>
      let r := deliver sig s in
      let '(s', t) := exec rest (store r) in
      (s', trace r ++ t)
  end.

(* ================================================================== *)
(** ** Observations the properties are stated with *)

Definition is_open_call (e : Effect) : bool :=
  match e with WsNew _ => true | _ => false end.

Definition is_close_call (e : Effect) : bool :=
  match e with WsClose _ => true | _ => false end.

Definition is_ws_call (e : Effect) : bool :=
  match e with ConsoleLog _ => false | _ => true end.

Definition open_calls (t : list Effect) : list Effect := filter is_open_call t.
Definition close_calls (t : list Effect) : list Effect := filter is_close_call t.
Definition ws_calls (t : list Effect) : list Effect := filter is_ws_call t.

(** The handles the bridge owns, and how many of them are open. *)
Definition owned (s : Store) : list WebSocketObj :=
  match appSocket s with
  | Some ws => [ws]
  | None    => []
  end.

Definition open_handles (s : Store) : nat :=
  List.length (filter (fun ws => Z.eqb (readyState ws) WebSocket.OPEN) (owned s)).

(** Handles brought into being and not yet closed, counted along a trace
    from [n] handles at its start. *)
Fixpoint live_count (n : nat) (t : list Effect) : nat :=
  match t with
  | [] => n
  | WsNew _ :: t'      => live_count (S n) t'
  | WsClose _ :: t'    => live_count (Nat.pred n) t'
  | ConsoleLog _ :: t' => live_count n t'
  end.

(** Whether the [close()] of the handle held, if any, returns. *)
Definition close_returns (s : Store) : bool :=
  match appSocket s with
  | Some ws => match close_raises ws with None => true | Some _ => false end
  | None    => true
  end.

(** What the [close()] of the handle held, if any, answers. *)
Definition close_answer (s : Store) : Completion unit :=
  match appSocket s with
  | Some ws =>
      match close_raises ws with
      | Some e => Throw e
      | None   => Normal tt
      end
  | None => Normal tt
  end.

Definition is_activation (sig : Signal) : bool :=
  match sig with show _ | resume => true | _ => false end.

Definition is_suspension (sig : Signal) : bool :=
  match sig with hide _ | freeze => true | _ => false end.

(* ================================================================== *)
(** ** Listener registration and event dispatch *)

(** The two event targets the script registers on. *)
Inductive Target : Type := window | document.

Definition Target_eqb (a b : Target) : bool :=
  match a, b with
  | window, window | document, document => true
  | _, _ => false
  end.

(** The function objects the script hands to [addEventListener]. *)
Inductive Listener : Type :=
| fn_onPageShow
| fn_onPageHide
| fn_onFreeze
| fn_onResume.

(** Calling a registered function with the dispatched event; [onFreeze] and
    [onResume] declare no parameter and ignore it. *)
Definition call_listener (f : Listener) (event : PageTransitionEvent)
  : M unit :=
  match f with
  | fn_onPageShow => onPageShow event
  | fn_onPageHide => onPageHide event
  | fn_onFreeze   => onFreeze
  | fn_onResume   => onResume
  end.

Record Registration : Type := mkReg {
  reg_target   : Target;
  reg_type     : string;
  reg_listener : Listener
}.

(** [target.addEventListener(type, listener)]: the listener joins the end
    of the target's list.  The script registers each of its functions
    once, so the platform's removal of duplicates never applies. *)
Definition addEventListener
    (t : Target) (type : string) (f : Listener) (regs : list Registration)
  : list Registration :=
  regs ++ [mkReg t type f].

(** Lines 126-131, in program order. *)
Definition attach_listeners (regs : list Registration) : list Registration :=
  let regs := addEventListener window "pageshow" fn_onPageShow regs in
  let regs := addEventListener window "pagehide" fn_onPageHide regs in
  let regs := addEventListener document "freeze" fn_onFreeze regs in
  let regs := addEventListener document "resume" fn_onResume regs in
  regs.

Definition listeners : list Registration := attach_listeners [].

Definition listens (t : Target) (type : string) (r : Registration) : bool :=
  Target_eqb (reg_target r) t && String.eqb (reg_type r) type.


(** The page calls the matching listeners in registration order; an
    exception raised by one is reported and the next one still runs. *)
Fixpoint run_listeners
    (fs : list Listener) (event : PageTransitionEvent) (s : Store)
  : Store * list Effect :=
  match fs with
  | [] => (s, [])
  | f :: rest =>
      let r := call_listener f event s in
      let '(s', t) := run_listeners rest event (store r) in
      (s', trace r ++ t)
  end.

Definition dispatchEvent
    (regs : list Registration) (t : Target) (type : string)
    (event : PageTransitionEvent) (s : Store)
  : Store * list Effect :=
  run_listeners (map reg_listener (filter (listens t type) regs)) event s.

(** Where and under which name the page dispatches each lifecycle signal. *)
Definition signal_target (sig : Signal) : Target :=
  match sig with
  | show _ | hide _ => window
  | freeze | resume => document
  end.

Definition signal_type (sig : Signal) : string :=
  match sig with
  | show _ => "pageshow"
  | hide _ => "pagehide"
  | freeze => "freeze"
  | resume => "resume"
  end.

Definition signal_event (sig : Signal) : PageTransitionEvent :=
  match sig with
  | show p | hide p => mkEvent p
  | freeze | resume => mkEvent false
  end.

(** The number of [hide] and [freeze] signals in a sequence. *)
Definition suspensions (sigs : list Signal) : nat :=
  List.length (filter is_suspension sigs).

(* ================================================================== *)
(** ** Equations of the two workers *)

Section Workers.

Variable s : Store.

Lemma connectWebSocket_store : store (connectWebSocket s) = s.
Proof.
  unfold connectWebSocket, bind; simpl.
  destruct (already_open (appSocket s)); reflexivity.
Qed.

Lemma connectWebSocket_completion :
  completion (connectWebSocket s) = Normal tt.
Proof.
  unfold connectWebSocket, bind; simpl.
  destruct (already_open (appSocket s)); reflexivity.
Qed.

Lemma connectWebSocket_trace :
  trace (connectWebSocket s) =
  [ConsoleLog
     [LStr (if already_open (appSocket s)
            then "[bfcache-manager] WebSocket already open."
            else "[bfcache-manager] Connecting WebSocket...")]].
Proof.
  unfold connectWebSocket, bind; simpl.
  destruct (already_open (appSocket s)); reflexivity.
Qed.

Lemma closeWebSocket_absent :
  appSocket s = None ->
  closeWebSocket s = mkOutcome (Normal tt) s [].
Proof.
  intros H. unfold closeWebSocket, bind; simpl. rewrite H. reflexivity.
Qed.

Lemma closeWebSocket_present ws :
  appSocket s = Some ws ->
  closeWebSocket s =
  match close_raises ws with
  | None =>
      mkOutcome (Normal tt) (mkStore None)
        [ConsoleLog
           [LStr "[bfcache-manager] Closing WebSocket for page suspension..."];
         WsClose ws]
  | Some e =>
      mkOutcome (Throw e) s
        [ConsoleLog
           [LStr "[bfcache-manager] Closing WebSocket for page suspension..."];
         WsClose ws]
  end.
Proof.
  intros H. unfold closeWebSocket, bind; simpl. rewrite H.
  unfold ws_close; simpl. destruct (close_raises ws); reflexivity.
Qed.

End Workers.

(** A listener is a log line followed by one of the two workers. *)
Lemma log_then_worker (args : list LogArg) (w : M unit) (s : Store) :
  (console_log args ;; w) s =
  mkOutcome (completion (w s)) (store (w s)) (ConsoleLog args :: trace (w s)).
Proof. reflexivity. Qed.

Lemma onPageShow_unfold (e : PageTransitionEvent) (s : Store) :
  onPageShow e s =
  mkOutcome (Normal tt) s
    (ConsoleLog
       [LStr (if persisted e
              then "[bfcache-manager] Page restored from bfcache."
              else "[bfcache-manager] Page loaded normally.")]
     :: trace (connectWebSocket s)).
Proof.
  unfold onPageShow.
  destruct (persisted e); rewrite log_then_worker;
    rewrite connectWebSocket_completion, connectWebSocket_store; reflexivity.
Qed.

Lemma onResume_unfold (s : Store) :
  onResume s =
  mkOutcome (Normal tt) s
    (ConsoleLog [LStr "[bfcache-manager] Page resuming."]
     :: trace (connectWebSocket s)).
Proof.
  unfold onResume. rewrite log_then_worker.
  rewrite connectWebSocket_completion, connectWebSocket_store; reflexivity.
Qed.

(** A worker's trace holds at most a log line and a [close()] call. *)
Lemma connectWebSocket_no_ws_call (s : Store) :
  ws_calls (trace (connectWebSocket s)) = [].
Proof. rewrite connectWebSocket_trace. reflexivity. Qed.

Lemma closeWebSocket_ws_calls (s : Store) :
  ws_calls (trace (closeWebSocket s)) = map WsClose (owned s).
Proof.
  destruct (appSocket s) as [ws|] eqn:E.
  - rewrite (closeWebSocket_present s ws E). unfold owned. rewrite E.
    destruct (close_raises ws); reflexivity.
  - rewrite (closeWebSocket_absent s E). unfold owned. rewrite E. reflexivity.
Qed.

Lemma deliver_ws_calls (sig : Signal) (s : Store) :
  ws_calls (trace (deliver sig s)) =
  if is_suspension sig then map WsClose (owned s) else [].
Proof.
  destruct sig as [p|p| |]; cbn [deliver is_suspension].
  - rewrite onPageShow_unfold. apply connectWebSocket_no_ws_call.
  - unfold onPageHide. rewrite log_then_worker.
    apply closeWebSocket_ws_calls.
  - unfold onFreeze. rewrite log_then_worker.
    apply closeWebSocket_ws_calls.
  - rewrite onResume_unfold. apply connectWebSocket_no_ws_call.
Qed.

(** ** Sequences of signals *)

(** With no handle held, a listener changes nothing and calls no socket. *)
Lemma deliver_absent (sig : Signal) (s : Store) :
  appSocket s = None ->
  store (deliver sig s) = s /\
  completion (deliver sig s) = Normal tt /\
  ws_calls (trace (deliver sig s)) = [].
Proof.
  intros H. destruct sig as [p|p| |]; cbn [deliver].
  - rewrite onPageShow_unfold.
    repeat split. apply connectWebSocket_no_ws_call.
  - unfold onPageHide. rewrite log_then_worker.
    rewrite (closeWebSocket_absent s H). repeat split.
  - unfold onFreeze. rewrite log_then_worker.
    rewrite (closeWebSocket_absent s H). repeat split.
  - rewrite onResume_unfold.
    repeat split. apply connectWebSocket_no_ws_call.
Qed.

Lemma ws_calls_app (t u : list Effect) :
  ws_calls (t ++ u) = ws_calls t ++ ws_calls u.
Proof. apply filter_app. Qed.

Lemma exec_absent (sigs : list Signal) (s : Store) :
  appSocket s = None ->
  fst (exec sigs s) = s /\ ws_calls (snd (exec sigs s)) = [].
Proof.
  revert s. induction sigs as [|sig sigs IH]; intros s H; simpl.
  - split; reflexivity.
  - destruct (deliver_absent sig s H) as (Hs & _ & Ht).
    rewrite Hs. destruct (IH s H) as [IH1 IH2].
    destruct (exec sigs s) as [s1 t1]; simpl in *.
    split; [assumption|]. rewrite ws_calls_app, Ht, IH2. reflexivity.
Qed.

Lemma boot_absent : appSocket boot = None.
Proof. reflexivity. Qed.

Lemma open_calls_of_ws_calls (t : list Effect) :
  ws_calls t = [] -> open_calls t = [].
Proof.
  induction t as [|e t IH]; simpl; intros H; [reflexivity|].
  destruct e; simpl in *; try discriminate; auto.
Qed.

Lemma deliver_suspension (sig : Signal) (s : Store) :
  is_suspension sig = true ->
  completion (deliver sig s) = completion (closeWebSocket s) /\
  store (deliver sig s) = store (closeWebSocket s) /\
  ws_calls (trace (deliver sig s)) = ws_calls (trace (closeWebSocket s)).
Proof.
  destruct sig as [p|p| |]; cbn [is_suspension]; intros H; try discriminate;
    cbn [deliver]; [unfold onPageHide | unfold onFreeze];
    rewrite log_then_worker; repeat split.
Qed.

Lemma deliver_activation (sig : Signal) (s : Store) :
  is_activation sig = true ->
  completion (deliver sig s) = Normal tt /\
  store (deliver sig s) = s /\
  ws_calls (trace (deliver sig s)) = [].
Proof.
  destruct sig as [p|p| |]; cbn [is_activation]; intros H; try discriminate;
    cbn [deliver]; [rewrite onPageShow_unfold | rewrite onResume_unfold];
    repeat split; apply connectWebSocket_no_ws_call.
Qed.

Lemma close_calls_of_closes (l : list WebSocketObj) :
  close_calls (map WsClose l) = map WsClose l.
Proof. induction l as [|w l IH]; simpl; [|rewrite IH]; reflexivity. Qed.

Lemma close_calls_ws_calls (t : list Effect) :
  close_calls (ws_calls t) = close_calls t.
Proof.
  induction t as [|e t IH]; simpl; [reflexivity|].
  destruct e; simpl; rewrite ?IH; reflexivity.
Qed.

Lemma open_calls_ws_calls (t : list Effect) :
  open_calls (ws_calls t) = open_calls t.
Proof.
  induction t as [|e t IH]; simpl; [reflexivity|].
  destruct e; simpl; rewrite ?IH; reflexivity.
Qed.

(* ================================================================== *)
(** ** Activation: [show] and [resume] *)

(** C1, as the specification words it, fails on a freshly loaded page: after
    a single [show(false)] the bridge holds no open handle, not one. *)
Lemma show_on_fresh_page_opens_nothing :
  ~ (forall (sigs : list Signal) (sig : Signal),
        is_activation sig = true ->
        open_handles (fst (exec (sigs ++ [sig]) boot)) = 1).
Proof.
  intros H. specialize (H [] (show false) eq_refl).
  vm_compute in H. discriminate H.
Qed.

(** C1 (amended): after any sequence of lifecycle signals ending in a [show]
    or [resume], the bridge holds no Connection handle at all ([appSocket] is
    [null], so no handle is open) and the sequence has made no open/create
    call; on any store whatever, the activating listener completes, leaves
    the handle exactly as it found it and makes no open/create call. *)
Theorem activation_leaves_handle_as_found
    (sigs : list Signal) (sig : Signal) (s0 : Store) :
  is_activation sig = true ->
  (appSocket (fst (exec (sigs ++ [sig]) boot)) = None /\
   open_handles (fst (exec (sigs ++ [sig]) boot)) = 0 /\
   open_calls (snd (exec (sigs ++ [sig]) boot)) = []) /\
  (completion (deliver sig s0) = Normal tt /\
   store (deliver sig s0) = s0 /\
   open_handles (store (deliver sig s0)) = open_handles s0 /\
   open_calls (trace (deliver sig s0)) = []).
Proof.
  intros Hact.
  destruct (exec_absent (sigs ++ [sig]) boot boot_absent) as [Hs Ht].
  destruct (deliver_activation sig s0 Hact) as (Hc & Hst & Hw).
  split; [rewrite Hs; repeat split | repeat split].
  - apply open_calls_of_ws_calls, Ht.
  - exact Hc.
  - exact Hst.
  - rewrite Hst; reflexivity.
  - apply open_calls_of_ws_calls, Hw.
Qed.

Lemma activation_leaves_handle_as_found_witness :
  let sigs := [show false; hide false] in
  let s0 := mkStore (Some (mkWebSocket 7 WebSocket.CLOSED None)) in
  is_activation (show true) = true /\
  (appSocket (fst (exec (sigs ++ [show true]) boot)) = None /\
   open_handles (fst (exec (sigs ++ [show true]) boot)) = 0 /\
   open_calls (snd (exec (sigs ++ [show true]) boot)) = []) /\
  (completion (deliver (show true) s0) = Normal tt /\
   store (deliver (show true) s0) = s0 /\
   open_handles (store (deliver (show true) s0)) = open_handles s0 /\
   open_calls (trace (deliver (show true) s0)) = []).
Proof.
  intros sigs s0. split; [reflexivity|].
  apply (activation_leaves_handle_as_found sigs (show true) s0).
  reflexivity.
Defined.

(* ================================================================== *)
(** ** The handle is never populated *)

(** C2: whatever lifecycle signals reach the module after it is loaded,
    [appSocket] is [null] and no call has been made on any WebSocket, in
    particular no construction; [connectWebSocket] never changes the store
    and [closeWebSocket] either leaves it alone or sets [appSocket] to
    [null]. *)
Theorem appSocket_stays_null (sigs : list Signal) (s : Store) :
  appSocket boot = None /\
  appSocket (fst (exec sigs boot)) = None /\
  ws_calls (snd (exec sigs boot)) = [] /\
  open_calls (snd (exec sigs boot)) = [] /\
  open_calls (trace (main init_store)) = [] /\
  store (connectWebSocket s) = s /\
  open_calls (trace (connectWebSocket s)) = [] /\
  (store (closeWebSocket s) = s \/ store (closeWebSocket s) = mkStore None) /\
  open_calls (trace (closeWebSocket s)) = [].
Proof.
  destruct (exec_absent sigs boot boot_absent) as [Hs Ht].
  rewrite Hs.
  repeat split; try reflexivity.
  - exact Ht.
  - apply open_calls_of_ws_calls, Ht.
  - apply connectWebSocket_store.
  - apply open_calls_of_ws_calls, connectWebSocket_no_ws_call.
  - destruct (appSocket s) as [ws|] eqn:E.
    + rewrite (closeWebSocket_present s ws E).
      destruct (close_raises ws); [left | right]; reflexivity.
    + rewrite (closeWebSocket_absent s E). left; reflexivity.
  - rewrite <- open_calls_ws_calls, closeWebSocket_ws_calls.
    induction (owned s); [reflexivity | assumption].
Qed.

(* ================================================================== *)
(** ** Suspension: [hide] and [freeze] *)

Lemma closeWebSocket_returns (s : Store) :
  close_returns s = true ->
  completion (closeWebSocket s) = Normal tt /\
  store (closeWebSocket s) = mkStore None.
Proof.
  unfold close_returns. destruct (appSocket s) as [ws|] eqn:E.
  - rewrite (closeWebSocket_present s ws E).
    destruct (close_raises ws); [discriminate|]. split; reflexivity.
  - intros _. rewrite (closeWebSocket_absent s E).
    destruct s as [v]; simpl in E; subst v. split; reflexivity.
Qed.

(** C3: after a [hide] or [freeze] signal is handled no open Connection
    handle exists.  From any prior store whose held handle (if any) answers
    [close()], the listener completes, has called [close()] on exactly the
    handle held and leaves [appSocket] null; and after any sequence of
    signals on the loaded page that ends in [hide] or [freeze], [appSocket]
    is null. *)
Theorem suspension_clears_handle
    (sigs : list Signal) (sig : Signal) (s0 : Store) :
  is_suspension sig = true ->
  close_returns s0 = true ->
  (completion (deliver sig s0) = Normal tt /\
   appSocket (store (deliver sig s0)) = None /\
   open_handles (store (deliver sig s0)) = 0 /\
   close_calls (trace (deliver sig s0)) = map WsClose (owned s0)) /\
  (appSocket (fst (exec (sigs ++ [sig]) boot)) = None /\
   open_handles (fst (exec (sigs ++ [sig]) boot)) = 0).
Proof.
  intros Hsus Hret.
  destruct (deliver_suspension sig s0 Hsus) as (Hc & Hs & Ht).
  destruct (closeWebSocket_returns s0 Hret) as [Hc' Hs'].
  destruct (exec_absent (sigs ++ [sig]) boot boot_absent) as [Hb _].
  rewrite Hc, Hs, Hc', Hs', Hb. repeat split.
  rewrite <- close_calls_ws_calls, Ht, closeWebSocket_ws_calls.
  apply close_calls_of_closes.
Qed.

Lemma suspension_clears_handle_witness :
  let s0 := mkStore (Some (mkWebSocket 1 WebSocket.OPEN None)) in
  open_handles s0 = 1 /\
  (completion (deliver freeze s0) = Normal tt /\
   appSocket (store (deliver freeze s0)) = None /\
   open_handles (store (deliver freeze s0)) = 0 /\
   close_calls (trace (deliver freeze s0)) = map WsClose (owned s0)) /\
  (appSocket (fst (exec ([show true] ++ [freeze]) boot)) = None /\
   open_handles (fst (exec ([show true] ++ [freeze]) boot)) = 0).
Proof.
  intros s0. split; [reflexivity|].
  apply (suspension_clears_handle [show true] freeze s0); reflexivity.
Defined.

(* ================================================================== *)
(** ** Idempotence *)

(** C4, as the specification words it, fails: two consecutive [show] signals
    on a freshly loaded page make no open/create call, not one. *)
Lemma two_shows_make_no_open_call :
  ~ (forall (s : Store) (p q : bool),
        List.length (open_calls (snd (exec [show p; show q] s))) = 1).
Proof.
  intros H. specialize (H boot false false).
  vm_compute in H. discriminate H.
Qed.

(** C4 (amended): for any starting state, two consecutive [show] signals
    make no open/create call on the Connection (none, hence never two) and
    leave the handle as it was; the second invocation only writes two lines
    to the console, the second of them being 'WebSocket already open.' when
    an OPEN handle is held and 'Connecting WebSocket...' otherwise. *)
Theorem show_twice_opens_nothing (s : Store) (p q : bool) :
  open_calls (snd (exec [show p; show q] s)) = [] /\
  List.length (open_calls (snd (exec [show p; show q] s))) = 0 /\
  fst (exec [show p; show q] s) = s /\
  trace (deliver (show q) (store (deliver (show p) s))) =
  [ConsoleLog
     [LStr (if q
            then "[bfcache-manager] Page restored from bfcache."
            else "[bfcache-manager] Page loaded normally.")];
   ConsoleLog
     [LStr (if already_open (appSocket s)
            then "[bfcache-manager] WebSocket already open."
            else "[bfcache-manager] Connecting WebSocket...")]].
Proof.
  cbn [exec deliver fst snd].
  rewrite (onPageShow_unfold (mkEvent p) s). cbn [store trace].
  rewrite (onPageShow_unfold (mkEvent q) s). cbn [store trace persisted].
  rewrite !connectWebSocket_trace. repeat split.
Qed.

(** C5: close is issued only when a handle is present.  Starting with a
    handle whose [close()] returns, two consecutive [hide] signals make
    exactly one close call, on that handle, and the second [hide] makes
    none; a [freeze] (or a pair of [hide]s) arriving when no handle is held
    makes no close call and leaves the store as it was. *)
Theorem hide_twice_closes_once
    (s : Store) (ws : WebSocketObj) (p q : bool) :
  appSocket s = Some ws ->
  close_raises ws = None ->
  close_calls (snd (exec [hide p; hide q] s)) = [WsClose ws] /\
  close_calls (trace (deliver (hide q) (store (deliver (hide p) s)))) = [] /\
  store (deliver (hide q) (store (deliver (hide p) s))) =
    store (deliver (hide p) s) /\
  deliver freeze (mkStore None) =
    mkOutcome (Normal tt) (mkStore None)
      [ConsoleLog [LStr "[bfcache-manager] Page freezing."]] /\
  close_calls (trace (deliver freeze (mkStore None))) = [] /\
  close_calls (snd (exec [hide p; hide q] (mkStore None))) = [].
Proof.
  intros Hs Hret.
  cbn [exec deliver fst snd]. unfold onPageHide, onFreeze.
  rewrite !log_then_worker. cbn [store trace].
  rewrite (closeWebSocket_present s ws Hs), Hret. cbn [store trace].
  rewrite !(closeWebSocket_absent (mkStore None) eq_refl).
  cbn [store trace completion].
  repeat split.
Qed.

Lemma hide_twice_closes_once_witness :
  let ws := mkWebSocket 1 WebSocket.OPEN None in
  let s := mkStore (Some ws) in
  close_calls (snd (exec [hide false; hide false] s)) = [WsClose ws] /\
  close_calls
    (trace (deliver (hide false) (store (deliver (hide false) s)))) = [] /\
  store (deliver (hide false) (store (deliver (hide false) s))) =
    store (deliver (hide false) s) /\
  deliver freeze (mkStore None) =
    mkOutcome (Normal tt) (mkStore None)
      [ConsoleLog [LStr "[bfcache-manager] Page freezing."]] /\
  close_calls (trace (deliver freeze (mkStore None))) = [] /\
  close_calls (snd (exec [hide false; hide false] (mkStore None))) = [].
Proof.
  intros ws s.
  apply (hide_twice_closes_once s ws false false); reflexivity.
Defined.

(* ================================================================== *)
(** ** Listeners that share a worker *)

(** C6: on every store, [onFreeze] and [onPageHide] complete alike, leave
    the same store and make the same calls on the socket; their traces
    differ in the first console line only. *)
Theorem freeze_same_as_hide (s : Store) (e : PageTransitionEvent) :
  completion (onFreeze s) = completion (onPageHide e s) /\
  store (onFreeze s) = store (onPageHide e s) /\
  ws_calls (trace (onFreeze s)) = ws_calls (trace (onPageHide e s)) /\
  close_calls (trace (onFreeze s)) = close_calls (trace (onPageHide e s)) /\
  tl (trace (onFreeze s)) = tl (trace (onPageHide e s)).
Proof.
  unfold onFreeze, onPageHide. rewrite !log_then_worker.
  repeat split.
Qed.

(** C7: on every store, [onResume] and [onPageShow] with [persisted = false]
    complete alike, leave the same store (the one they found) and make the
    same calls on the socket, none of them an open call; their traces differ
    in the first console line only. *)
Theorem resume_same_as_show_false (s : Store) :
  completion (onResume s) = completion (onPageShow (mkEvent false) s) /\
  store (onResume s) = store (onPageShow (mkEvent false) s) /\
  ws_calls (trace (onResume s)) =
    ws_calls (trace (onPageShow (mkEvent false) s)) /\
  open_calls (trace (onResume s)) =
    open_calls (trace (onPageShow (mkEvent false) s)) /\
  tl (trace (onResume s)) = tl (trace (onPageShow (mkEvent false) s)).
Proof.
  rewrite onResume_unfold, onPageShow_unfold. repeat split.
Qed.

(** C10: the [persisted] flag of the event reaches the console only.  On
    every store, [onPageShow] with [persisted = true] and with
    [persisted = false] complete alike, leave the same store and make the
    same socket calls, and so does [onPageHide]; the console line is what
    differs. *)
Theorem persisted_flag_only_logged (s : Store) :
  (completion (onPageShow (mkEvent true) s) =
     completion (onPageShow (mkEvent false) s) /\
   store (onPageShow (mkEvent true) s) =
     store (onPageShow (mkEvent false) s) /\
   ws_calls (trace (onPageShow (mkEvent true) s)) =
     ws_calls (trace (onPageShow (mkEvent false) s)) /\
   tl (trace (onPageShow (mkEvent true) s)) =
     tl (trace (onPageShow (mkEvent false) s)) /\
   trace (onPageShow (mkEvent true) s) <>
     trace (onPageShow (mkEvent false) s)) /\
  (completion (onPageHide (mkEvent true) s) =
     completion (onPageHide (mkEvent false) s) /\
   store (onPageHide (mkEvent true) s) =
     store (onPageHide (mkEvent false) s) /\
   ws_calls (trace (onPageHide (mkEvent true) s)) =
     ws_calls (trace (onPageHide (mkEvent false) s)) /\
   tl (trace (onPageHide (mkEvent true) s)) =
     tl (trace (onPageHide (mkEvent false) s)) /\
   trace (onPageHide (mkEvent true) s) <>
     trace (onPageHide (mkEvent false) s)).
Proof.
  split.
  - rewrite !onPageShow_unfold. cbn [completion store trace persisted].
    repeat split. intros H. discriminate H.
  - unfold onPageHide. rewrite !log_then_worker.
    cbn [completion store trace persisted].
    repeat split. intros H. discriminate H.
Qed.

(* ================================================================== *)
(** ** Abrupt completion *)

Lemma closeWebSocket_completion (s : Store) :
  completion (closeWebSocket s) = close_answer s.
Proof.
  unfold close_answer. destruct (appSocket s) as [ws|] eqn:E.
  - rewrite (closeWebSocket_present s ws E).
    destruct (close_raises ws); reflexivity.
  - rewrite (closeWebSocket_absent s E). reflexivity.
Qed.

(** C8: the bridge raises nothing of its own.  Loading the script completes
    normally; on the loaded page every listener completes normally after
    every sequence of signals; and on any store whatever a listener's
    completion is exactly what the collaborator's [close()] answered when
    the listener is [onPageHide] or [onFreeze], and normal otherwise. *)
Theorem bridge_never_throws (sigs : list Signal) (sig : Signal) (s : Store) :
  completion (main init_store) = Normal tt /\
  completion (deliver sig (fst (exec sigs boot))) = Normal tt /\
  completion (deliver sig s) =
    (if is_suspension sig then close_answer s else Normal tt).
Proof.
  split; [reflexivity|]. split.
  - destruct (exec_absent sigs boot boot_absent) as [Hs _]. rewrite Hs.
    apply (deliver_absent sig boot boot_absent).
  - destruct (is_suspension sig) eqn:E.
    + destruct (deliver_suspension sig s E) as (Hc & _ & _).
      rewrite Hc. apply closeWebSocket_completion.
    + assert (Ha : is_activation sig = true)
        by (destruct sig; try discriminate E; reflexivity).
      apply (deliver_activation sig s Ha).
Qed.

(* ================================================================== *)
(** ** At most one handle *)

Lemma open_calls_app (t u : list Effect) :
  open_calls (t ++ u) = open_calls t ++ open_calls u.
Proof. apply filter_app. Qed.

Lemma deliver_no_open_call (sig : Signal) (s : Store) :
  open_calls (trace (deliver sig s)) = [].
Proof.
  rewrite <- open_calls_ws_calls, deliver_ws_calls.
  destruct (is_suspension sig); [|reflexivity].
  induction (owned s); [reflexivity | assumption].
Qed.

Lemma exec_no_open_call (sigs : list Signal) (s : Store) :
  open_calls (snd (exec sigs s)) = [].
Proof.
  revert s. induction sigs as [|sig sigs IH]; intros s; simpl.
  - reflexivity.
  - specialize (IH (store (deliver sig s))).
    destruct (exec sigs (store (deliver sig s))) as [s1 t1]; simpl in *.
    rewrite open_calls_app, deliver_no_open_call, IH. reflexivity.
Qed.

Lemma open_calls_firstn (k : nat) (t : list Effect) :
  open_calls t = [] -> open_calls (firstn k t) = [].
Proof.
  revert k. induction t as [|e t IH]; intros k H.
  - destruct k; reflexivity.
  - destruct k as [|k]; [reflexivity|]. simpl in *.
    destruct (is_open_call e); [discriminate H|]. apply IH, H.
Qed.

Lemma live_count_without_open (t : list Effect) (n : nat) :
  open_calls t = [] -> live_count n t <= n.
Proof.
  revert n. induction t as [|e t IH]; intros n H; simpl.
  - lia.
  - destruct e as [args|url|ws]; simpl in H.
    + apply IH, H.
    + discriminate H.
    + specialize (IH (Nat.pred n) H). lia.
Qed.

Lemma owned_at_most_one (s : Store) : List.length (owned s) <= 1.
Proof. unfold owned. destruct (appSocket s); simpl; lia. Qed.

Lemma open_handles_at_most_one (s : Store) : open_handles s <= 1.
Proof.
  unfold open_handles, owned. destruct (appSocket s) as [ws|]; simpl.
  - destruct (Z.eqb (readyState ws) WebSocket.OPEN); simpl; lia.
  - lia.
Qed.

(** C9: the bridge never owns two open handles.  From any store and after
    any sequence of lifecycle signals it owns at most one handle, hence at
    most one open handle; and at every point of the trace the sequence
    produces (every prefix [firstn k]), the handles brought into being and
    not yet closed number at most one, none at all on the loaded page. *)
Theorem at_most_one_live_handle (s : Store) (sigs : list Signal) (k : nat) :
  List.length (owned (fst (exec sigs s))) <= 1 /\
  open_handles (fst (exec sigs s)) <= 1 /\
  live_count (List.length (owned s)) (firstn k (snd (exec sigs s))) <= 1 /\
  live_count (List.length (owned boot)) (firstn k (snd (exec sigs boot))) = 0.
Proof.
  repeat split.
  - apply owned_at_most_one.
  - apply open_handles_at_most_one.
  - pose proof (live_count_without_open
                  (firstn k (snd (exec sigs s))) (List.length (owned s))
                  (open_calls_firstn k _ (exec_no_open_call sigs s))) as H.
    pose proof (owned_at_most_one s). lia.
  - pose proof (live_count_without_open
                  (firstn k (snd (exec sigs boot))) (List.length (owned boot))
                  (open_calls_firstn k _ (exec_no_open_call sigs boot))) as H.
    change (List.length (owned boot)) with 0 in *. lia.
Qed.


(* ================================================================== *)
(** ** One signal, on any store *)


Lemma activation_or_suspension (sig : Signal) :
  is_activation sig = negb (is_suspension sig).
Proof. destruct sig; reflexivity. Qed.

(** What a signal does to the store and which socket calls it makes. *)
Lemma deliver_step (sig : Signal) (s : Store) :
  store (deliver sig s) =
    (if is_suspension sig then store (closeWebSocket s) else s) /\
  ws_calls (trace (deliver sig s)) =
    (if is_suspension sig then map WsClose (owned s) else []).
Proof.
  split; [|apply deliver_ws_calls].
  destruct (is_suspension sig) eqn:E.
  - apply (deliver_suspension sig s E).
  - apply (deliver_activation sig s).
    rewrite activation_or_suspension, E. reflexivity.
Qed.

Lemma exec_cons (sig : Signal) (sigs : list Signal) (s : Store) :
  fst (exec (sig :: sigs) s) = fst (exec sigs (store (deliver sig s))) /\
  snd (exec (sig :: sigs) s) =
    trace (deliver sig s) ++ snd (exec sigs (store (deliver sig s))).
Proof.
  simpl. destruct (exec sigs (store (deliver sig s))); split; reflexivity.
Qed.

Lemma close_calls_app (t u : list Effect) :
  close_calls (t ++ u) = close_calls t ++ close_calls u.
Proof. apply filter_app. Qed.

Lemma close_calls_repeat (ws : WebSocketObj) (n : nat) :
  close_calls (repeat (WsClose ws) n) = repeat (WsClose ws) n.
Proof. induction n as [|n IH]; simpl; [|rewrite IH]; reflexivity. Qed.

(** ** Sequences on a store that holds a handle *)

Lemma exec_held_returns (sigs : list Signal) (s : Store) (ws : WebSocketObj) :
  appSocket s = Some ws ->
  close_raises ws = None ->
  fst (exec sigs s) =
    (if existsb is_suspension sigs then mkStore None else s) /\
  ws_calls (snd (exec sigs s)) =
    (if existsb is_suspension sigs then [WsClose ws] else []).
Proof.
  intros Hs Hr. induction sigs as [|sig sigs IH].
  - split; reflexivity.
  - destruct (exec_cons sig sigs s) as [Ef Et]. rewrite Ef, Et. clear Ef Et.
    destruct (deliver_step sig s) as [Hst Hw].
    rewrite ws_calls_app, Hw, Hst. cbn [existsb].
    destruct (is_suspension sig); cbn [orb].
    + rewrite (closeWebSocket_present s ws Hs), Hr. cbn [store].
      destruct (exec_absent sigs (mkStore None) eq_refl) as [Af At].
      rewrite Af, At. unfold owned. rewrite Hs. split; reflexivity.
    + exact IH.
Qed.

Lemma exec_held_raises
    (sigs : list Signal) (s : Store) (ws : WebSocketObj) (e : string) :
  appSocket s = Some ws ->
  close_raises ws = Some e ->
  fst (exec sigs s) = s /\
  ws_calls (snd (exec sigs s)) = repeat (WsClose ws) (suspensions sigs).
Proof.
  intros Hs Hr. induction sigs as [|sig sigs IH].
  - split; reflexivity.
  - destruct (exec_cons sig sigs s) as [Ef Et]. rewrite Ef, Et. clear Ef Et.
    destruct (deliver_step sig s) as [Hst Hw].
    rewrite ws_calls_app, Hw, Hst. unfold suspensions. cbn [filter].
    destruct (is_suspension sig).
    + rewrite (closeWebSocket_present s ws Hs), Hr. cbn [store].
      destruct IH as [IH1 IH2]. rewrite IH1, IH2.
      unfold owned. rewrite Hs. split; reflexivity.
    + exact IH.
Qed.

(* ================================================================== *)
(** ** When the collaborator's [close()] raises *)

(** X1: if [close()] raises on the handle held, [closeWebSocket] ends with
    that exception after the log line and the call, and does not clear
    [appSocket]; so after any sequence of signals the handle is still held
    and [close()] has been called on it once per [hide]/[freeze]. *)
Theorem close_failure_keeps_handle
    (sigs : list Signal) (s : Store) (ws : WebSocketObj) (e : string) :
  appSocket s = Some ws ->
  close_raises ws = Some e ->
  closeWebSocket s =
    mkOutcome (Throw e) s
      [ConsoleLog
         [LStr "[bfcache-manager] Closing WebSocket for page suspension..."];
       WsClose ws] /\
  fst (exec sigs s) = s /\
  close_calls (snd (exec sigs s)) = repeat (WsClose ws) (suspensions sigs).
Proof.
  intros Hs Hr. split; [|split].
  - rewrite (closeWebSocket_present s ws Hs), Hr. reflexivity.
  - apply (exec_held_raises sigs s ws e Hs Hr).
  - rewrite <- close_calls_ws_calls.
    destruct (exec_held_raises sigs s ws e Hs Hr) as [_ Hw]. rewrite Hw.
    apply close_calls_repeat.
Qed.

Lemma close_failure_keeps_handle_witness :
  let ws := mkWebSocket 4 WebSocket.OPEN (Some "InvalidStateError") in
  let s := mkStore (Some ws) in
  let sigs := [hide true; show true; freeze] in
  closeWebSocket s =
    mkOutcome (Throw "InvalidStateError") s
      [ConsoleLog
         [LStr "[bfcache-manager] Closing WebSocket for page suspension..."];
       WsClose ws] /\
  fst (exec sigs s) = s /\
  close_calls (snd (exec sigs s)) = repeat (WsClose ws) (suspensions sigs).
Proof.
  intros ws s sigs.
  apply (close_failure_keeps_handle sigs s ws "InvalidStateError");
    reflexivity.
Defined.

(* ================================================================== *)
(** ** Whole sequences, from any store *)



(** X3: the handle is never replaced.  From any store, whatever the
    collaborator answers, the store after any sequence of signals is the
    starting store or the null one; every socket call made along the way is
    a [close()] on the handle held at the start; and the number of open
    handles has not grown. *)
Theorem handle_never_replaced (sigs : list Signal) (s : Store) :
  (fst (exec sigs s) = s \/ fst (exec sigs s) = mkStore None) /\
  Forall (fun c => In c (map WsClose (owned s)))
         (ws_calls (snd (exec sigs s))) /\
  open_handles (fst (exec sigs s)) <= open_handles s.
Proof.
  destruct (appSocket s) as [ws|] eqn:Hs.
  - unfold owned at 1. rewrite Hs.
    destruct (close_raises ws) as [e|] eqn:Hr.
    + destruct (exec_held_raises sigs s ws e Hs Hr) as [Hf Hw].
      rewrite Hf, Hw. split; [left; reflexivity|]. split; [|lia].
      apply Forall_forall. intros c Hc.
      apply repeat_spec in Hc. subst c. left; reflexivity.
    + destruct (exec_held_returns sigs s ws Hs Hr) as [Hf Hw].
      rewrite Hf, Hw.
      destruct (existsb is_suspension sigs).
      * split; [right; reflexivity|]. split.
        -- constructor; [left; reflexivity | constructor].
        -- change (open_handles (mkStore None)) with 0. lia.
      * split; [left; reflexivity|]. split; [constructor | lia].
  - destruct (exec_absent sigs s Hs) as [Hf Hw].
    rewrite Hf, Hw. split; [left; reflexivity|]. split; [constructor | lia].
Qed.

(** X4: only the number of [hide]/[freeze] signals in a sequence matters to
    the handle.  From any store, a sequence of signals leaves the same store
    and makes the same socket calls as [freeze] delivered once per
    [hide]/[freeze] of the sequence: [show] and [resume] can be dropped, and
    [hide], with either flag, and [freeze] exchanged. *)
Theorem only_suspensions_count (sigs : list Signal) (s : Store) :
  fst (exec sigs s) = fst (exec (repeat freeze (suspensions sigs)) s) /\
  ws_calls (snd (exec sigs s)) =
    ws_calls (snd (exec (repeat freeze (suspensions sigs)) s)).
Proof.
  revert s. induction sigs as [|sig sigs IH]; intros s.
  - split; reflexivity.
  - destruct (exec_cons sig sigs s) as [Ef Et]. rewrite Ef, Et. clear Ef Et.
    destruct (deliver_step sig s) as [Hst Hw].
    rewrite ws_calls_app, Hw, Hst. unfold suspensions. cbn [filter].
    destruct (is_suspension sig).
    + cbn [List.length repeat].
      destruct (exec_cons freeze (repeat freeze (suspensions sigs)) s)
        as [Ef Et].
      unfold suspensions in Ef, Et. rewrite Ef, Et. clear Ef Et.
      destruct (deliver_step freeze s) as [Hst' Hw'].
      cbn [is_suspension] in Hst', Hw'.
      rewrite ws_calls_app, Hw', Hst'.
      destruct (IH (store (closeWebSocket s))) as [IH1 IH2].
      unfold suspensions in IH1, IH2. rewrite IH1, IH2.
      split; reflexivity.
    + simpl app. apply IH.
Qed.

(* ================================================================== *)
(** ** The console of the loaded page *)

Lemma deliver_on_null (sig : Signal) :
  store (deliver sig (mkStore None)) = mkStore None.
Proof. apply (deliver_absent sig (mkStore None) eq_refl). Qed.

Lemma exec_on_null_Forall (P : Effect -> Prop) (sigs : list Signal) :
  (forall sig, Forall P (trace (deliver sig (mkStore None)))) ->
  Forall P (snd (exec sigs (mkStore None))).
Proof.
  intros HP. induction sigs as [|sig sigs IH].
  - constructor.
  - destruct (exec_cons sig sigs (mkStore None)) as [_ Et]. rewrite Et.
    rewrite deliver_on_null. apply Forall_app. split; [apply HP | exact IH].
Qed.

Lemma exec_on_null_length (sigs : list Signal) :
  List.length (snd (exec sigs (mkStore None))) =
  List.length sigs + List.length (filter is_activation sigs).
Proof.
  induction sigs as [|sig sigs IH].
  - reflexivity.
  - destruct (exec_cons sig sigs (mkStore None)) as [_ Et]. rewrite Et.
    rewrite deliver_on_null, length_app, IH.
    destruct sig as [p|p| |]; [destruct p | | | ]; simpl; lia.
Qed.

(** X5: on the loaded page two branches of the script are never taken.
    After any sequence of signals the console has received neither
    'WebSocket already open.' (line 35) nor 'Closing WebSocket for page
    suspension...' (line 64); it has received two lines per [show]/[resume]
    and one per [hide]/[freeze]. *)
Theorem loaded_page_console (sigs : list Signal) :
  ~ In (ConsoleLog [LStr "[bfcache-manager] WebSocket already open."])
       (snd (exec sigs boot)) /\
  ~ In (ConsoleLog
          [LStr "[bfcache-manager] Closing WebSocket for page suspension..."])
       (snd (exec sigs boot)) /\
  List.length (snd (exec sigs boot)) =
    List.length sigs + List.length (filter is_activation sigs).
Proof.
  change boot with (mkStore None).
  split; [|split].
  - intros Hin.
    pose proof (exec_on_null_Forall
      (fun c => c <>
         ConsoleLog [LStr "[bfcache-manager] WebSocket already open."])
      sigs) as HF.
    rewrite Forall_forall in HF. eapply HF; [|exact Hin|reflexivity].
    intros sig. destruct sig as [p|p| |]; [destruct p | | | ];
      repeat constructor; intros H; discriminate H.
  - intros Hin.
    pose proof (exec_on_null_Forall
      (fun c => c <>
         ConsoleLog
           [LStr "[bfcache-manager] Closing WebSocket for page suspension..."])
      sigs) as HF.
    rewrite Forall_forall in HF. eapply HF; [|exact Hin|reflexivity].
    intros sig. destruct sig as [p|p| |]; [destruct p | | | ];
      repeat constructor; intros H; discriminate H.
  - apply exec_on_null_length.
Qed.

(* ================================================================== *)
(** ** Registration and dispatch *)


Lemma run_single_listener
    (f : Listener) (event : PageTransitionEvent) (s : Store) :
  run_listeners [f] event s =
  (store (call_listener f event s), trace (call_listener f event s)).
Proof. simpl. rewrite app_nil_r. reflexivity. Qed.

(** X6: the registrations of lines 126-131 route each lifecycle signal to
    exactly one function of the script.  Dispatching [pageshow] or
    [pagehide] on [window], or [freeze] or [resume] on [document], runs
    [onPageShow], [onPageHide], [onFreeze] or [onResume] respectively, once,
    with the dispatched event, and nothing else. *)
Theorem dispatch_runs_one_listener (sig : Signal) (s : Store) :
  map reg_listener
      (filter (listens (signal_target sig) (signal_type sig)) listeners) =
    [match sig with
     | show _ => fn_onPageShow
     | hide _ => fn_onPageHide
     | freeze => fn_onFreeze
     | resume => fn_onResume
     end] /\
  dispatchEvent listeners (signal_target sig) (signal_type sig)
                (signal_event sig) s =
    (store (deliver sig s), trace (deliver sig s)).
Proof.
  unfold dispatchEvent.
  destruct sig as [p|p| |]; cbn [signal_target signal_type signal_event];
    (split; [reflexivity|]).
  - change (map reg_listener (filter (listens window "pageshow") listeners))
      with [fn_onPageShow].
    apply run_single_listener.
  - change (map reg_listener (filter (listens window "pagehide") listeners))
      with [fn_onPageHide].
    apply run_single_listener.
  - change (map reg_listener (filter (listens document "freeze") listeners))
      with [fn_onFreeze].
    apply run_single_listener.
  - change (map reg_listener (filter (listens document "resume") listeners))
      with [fn_onResume].
    apply run_single_listener.
Qed.



